(** * Dead-reckoning odometry of a differential-drive robot

    Shallow embedding of [control/localization.py]: the angle wrapping
    helper [wrap_to_pi] and the [DeadReckoning] node (its fields, its three
    subscription callbacks and the periodic [update_odometry]).

    Python floats are read as real numbers: every arithmetic operation is
    the exact one, so rounding, infinities and NaN are outside the model.
    What Python does on real numbers is kept: a float division by zero
    raises [ZeroDivisionError], and an attribute may hold [None].

    Rounding shows at the two ends of the heading range, where the exact
    reading and the doubles of the program can differ by a whole turn.
    [Binary64] gives [wrap_to_pi] and the heading update a second time, on
    IEEE binary64 numbers, where they can be evaluated; what is stated on
    real numbers below holds with both ends of the range included. *)

From Stdlib Require Import Reals Lra Lia ZArith List String.
From Stdlib Require Floats.
Import ListNotations.
Open Scope R_scope.

(** ** Utility functions *)

Module Utility.

(** Integer nearest to [r] between [0] and [r]: the quotient that C's
    [fmod] subtracts. *)
Definition Rtrunc (r : R) : Z :=
  if Rle_dec 0 r then Int_part r else (- Int_part (- r))%Z.

(** [np.fmod x y]: the remainder of [x / y] that carries the sign of the
    dividend [x], i.e. [x - n * y] with [n] the quotient truncated towards
    zero. *)
Definition fmod (x y : R) : R := x - IZR (Rtrunc (x / y)) * y.

(** [wrap_to_pi] ([localization.py], lines 18-23). *)
Definition wrap_to_pi (theta : R) : R :=
  let result := fmod (theta + PI) (2 * PI) in
  let result := if Rlt_dec result 0 then result + 2 * PI else result in
  result - PI.

End Utility.

Import Utility.

(** ** The same functions on doubles *)

Module Binary64.

Import PrimFloat FloatOps SpecFloat.
Local Open Scope float_scope.

(** [math.pi]. *)
Definition pi : float := 0x1.921fb54442d18p+1.

(** The double just below [- math.pi], and the one just above [math.pi]. *)
Definition below_minus_pi : float := next_down (- pi).

Definition above_pi : float := next_up pi.

(** [np.fmod x y] on doubles: C's [fmod], which does not round. For finite
    [x = mx * 2 ^ ex] and [y = my * 2 ^ ey] the remainder is taken on the
    integers that [x] and [y] are in units of the smaller exponent, and
    carries the sign of [x]. *)
Definition fmod (x y : float) : float :=
  match Prim2SF x, Prim2SF y with
  | S754_nan, _ | _, S754_nan => nan
  | S754_infinity _, _ | _, S754_zero _ => nan
  | S754_zero _, _ => x
  | S754_finite _ _ _, S754_infinity _ => x
  | S754_finite sx mx ex, S754_finite _ my ey =>
      let e := Z.min ex ey in
      match Z.rem (Zpos mx * 2 ^ (ex - e))%Z (Zpos my * 2 ^ (ey - e))%Z with
      | Zpos m => SF2Prim (S754_finite sx m e)
      | _ => if sx then neg_zero else zero
      end
  end.

(** [wrap_to_pi] ([localization.py], lines 18-23) on doubles. *)
Definition wrap_to_pi (theta : float) : float :=
  let result := fmod (theta + pi) (2 * pi) in
  let result := if result <? 0 then result + 2 * pi else result in
  result - pi.

(** The heading that [update_odometry] leaves (lines 144-149 and 154), on
    doubles; [None] is the [ZeroDivisionError] of line 149. *)
Definition heading_step (wheel_radius wheel_base omega_r omega_l theta dt :
                           float) : option float :=
  let v_r := wheel_radius * omega_r in
  let v_l := wheel_radius * omega_l in
  if wheel_base =? 0 then None
  else
    let Omega := (v_r - v_l) / wheel_base in
    Some (wrap_to_pi (theta + Omega * dt)).

End Binary64.

(** ** Messages and library values *)

Module Msg.

(** [builtin_interfaces/Time], read as the instant it denotes, in
    seconds. *)
Record Time : Type := mkTime { seconds : R }.

(** Modelled from the spec: [rclpy.time.Time(seconds=t).to_msg()] is
    library code outside the sources; the stamp it makes is identified with
    the simulation time [t] it was built from. *)
Definition Time_to_msg (t : R) : Time := mkTime t.

Record Header : Type := mkHeader { stamp : Time; frame_id : string }.

Record Point : Type := mkPoint { pt_x : R; pt_y : R; pt_z : R }.

Record Vector3 : Type := mkVector3 { v3_x : R; v3_y : R; v3_z : R }.

Record Quaternion : Type :=
  mkQuaternion { quat_x : R; quat_y : R; quat_z : R; quat_w : R }.

(** [nav_msgs/Odometry], with the fields the node reads or writes; a field
    the node leaves alone keeps the zero of [Odometry()]. *)
Record Odometry : Type := mkOdometry {
  odom_header : Header;
  odom_child_frame_id : string;
  odom_position : Point;
  odom_orientation : Quaternion;
  odom_twist_linear : Vector3;
  odom_twist_angular : Vector3
}.

(** [geometry_msgs/TransformStamped]. *)
Record TransformStamped : Type := mkTransformStamped {
  tf_header : Header;
  tf_child_frame_id : string;
  tf_translation : Vector3;
  tf_rotation : Quaternion
}.

(** The array [(w, x, y, z)] returned by [euler2quat], indexed 0 to 3. *)
Record Quat4 : Type := mkQuat4 { q0 : R; q1 : R; q2 : R; q3 : R }.

(** Modelled from the spec: [transforms3d.euler.euler2quat] is library code
    outside the sources. With its default axes it is the quaternion
    [(w, x, y, z)] of the rotation by roll [ai], pitch [aj] and yaw [ak] in
    the Z-Y-X (yaw-pitch-roll) convention. *)
Definition euler2quat (ai aj ak : R) : Quat4 :=
  let ci := cos (ai / 2) in
  let si := sin (ai / 2) in
  let cj := cos (aj / 2) in
  let sj := sin (aj / 2) in
  let ck := cos (ak / 2) in
  let sk := sin (ak / 2) in
  let cc := ci * ck in
  let cs := ci * sk in
  let sc := si * ck in
  let ss := si * sk in
  mkQuat4 (cj * cc + sj * ss) (cj * sc - sj * cs)
          (cj * ss + sj * cc) (cj * cs - sj * sc).

End Msg.

Import Msg.

(** ** The dead-reckoning node *)

Module DeadReckoning.

(** The four parameters loaded by [__init__] (lines 47-56); they are never
    assigned again. *)
Record Params : Type := mkParams {
  wheel_base : R;
  wheel_radius : R;
  update_rate : R;
  integration_period : R
}.

(** The mutable attributes of the node (lines 59-69). [None] is Python's
    [None]. *)
Record State : Type := mkState {
  x : R;
  y : R;
  theta : R;
  omega_r : R;
  omega_l : R;
  sim_time : option R;
  last_sim_time : option R
}.

(** What a callback sends out of the node. *)
Inductive Event : Type :=
| Publish (odom_msg : Odometry)
| SendTransform (t : TransformStamped)
| LogInfo (px py ptheta : R).

Inductive Exn : Type := ZeroDivisionError.

(** A callback either returns, leaving a state and the events it sent, or
    raises, leaving the state as mutated so far. *)
Inductive Outcome : Type :=
| Done (s : State) (out : list Event)
| Raised (e : Exn) (s : State).

Definition state_of (o : Outcome) : State :=
  match o with
  | Done s _ => s
  | Raised _ s => s
  end.

(** Attribute values after [__init__] (lines 59-69). The subscriptions and
    the timer it creates are the operations [Op] below. *)
Definition init : State :=
  mkState 0 0 0 0 0 None None.

Definition set_omega_r (v : R) (s : State) : State :=
  mkState (x s) (y s) (theta s) v (omega_l s) (sim_time s) (last_sim_time s).

Definition set_omega_l (v : R) (s : State) : State :=
  mkState (x s) (y s) (theta s) (omega_r s) v (sim_time s) (last_sim_time s).

Definition set_sim_time (v : option R) (s : State) : State :=
  mkState (x s) (y s) (theta s) (omega_r s) (omega_l s) v (last_sim_time s).

Definition set_last_sim_time (v : option R) (s : State) : State :=
  mkState (x s) (y s) (theta s) (omega_r s) (omega_l s) (sim_time s) v.

Definition set_pose (x' y' theta' : R) (s : State) : State :=
  mkState x' y' theta' (omega_r s) (omega_l s) (sim_time s) (last_sim_time s).

(** [right_wheel_callback] (lines 107-109). *)
Definition right_wheel_callback (data : R) (s : State) : State :=
  set_omega_r data s.

(** [left_wheel_callback] (lines 111-113). *)
Definition left_wheel_callback (data : R) (s : State) : State :=
  set_omega_l data s.

(** [sim_time_callback] (lines 115-120). *)
Definition sim_time_callback (data : R) (s : State) : State :=
  set_sim_time (Some data) s.

(** The part of [update_odometry] after the clock tests (lines 143-194).
    [s] is the node with [last_sim_time] already advanced, [now] the value
    of [self.sim_time] and [dt] the local [dt]. *)
Definition integrate (p : Params) (s : State) (now dt : R) : Outcome :=
  let v_r := wheel_radius p * omega_r s in
  let v_l := wheel_radius p * omega_l s in
  let V := 0.5 * (v_r + v_l) in
  if Req_dec_T (wheel_base p) 0 then Raised ZeroDivisionError s
  else
    let Omega := (v_r - v_l) / wheel_base p in
    let x' := x s + V * cos (theta s) * dt in
    let y' := y s + V * sin (theta s) * dt in
    let theta' := wrap_to_pi (theta s + Omega * dt) in
    let s := set_pose x' y' theta' s in
    let quat := euler2quat 0 0 (theta s) in
    let orientation :=
      mkQuaternion (q1 quat) (q2 quat) (q3 quat) (q0 quat) in
    let odom_msg :=
      mkOdometry (mkHeader (Time_to_msg now) "odom") "base_footprint"
                 (mkPoint (x s) (y s) 0) orientation
                 (mkVector3 V 0 0) (mkVector3 0 0 Omega) in
    let t :=
      mkTransformStamped (mkHeader (Time_to_msg now) "odom") "base_footprint"
                         (mkVector3 (x s) (y s) 0)
                         (mkQuaternion (q1 quat) (q2 quat) (q3 quat)
                                       (q0 quat)) in
    Done s [Publish odom_msg; SendTransform t; LogInfo (x s) (y s) (theta s)].

(** [update_odometry] (lines 122-194). *)
Definition update_odometry (p : Params) (s : State) : Outcome :=
  match sim_time s with
  | None => Done s []
  | Some now =>
      match last_sim_time s with
      | None => Done (set_last_sim_time (Some now) s) []
      | Some last =>
          let dt := now - last in
          if Rlt_dec dt (integration_period p) then Done s []
          else integrate p (set_last_sim_time (Some now) s) now dt
      end
  end.

(** What the three clock tests of [update_odometry] (lines 129, 133 and
    139) decide: the tick returns at once, or goes on to integrate over
    [dt]. *)
Inductive Gate : Type :=
| NotReady
| Ready (dt : R).

Definition clock_gate (p : Params) (s : State) : Gate :=
  match sim_time s with
  | None => NotReady
  | Some now =>
      match last_sim_time s with
      | None => NotReady
      | Some last =>
          let dt := now - last in
          if Rlt_dec dt (integration_period p) then NotReady else Ready dt
      end
  end.

(** The callbacks the executor may run, one at a time. *)
Inductive Op : Type :=
| RightWheel (data : R)
| LeftWheel (data : R)
| SimTime (data : R)
| Tick.

Definition step (p : Params) (s : State) (op : Op) : Outcome :=
  match op with
  | RightWheel data => Done (right_wheel_callback data s) []
  | LeftWheel data => Done (left_wheel_callback data s) []
  | SimTime data => Done (sim_time_callback data s) []
  | Tick => update_odometry p s
  end.

(** Running callbacks in sequence; an exception ends the run, as it ends
    [rclpy.spin]. *)
Fixpoint run (p : Params) (s : State) (ops : list Op) : Outcome :=
  match ops with
  | [] => Done s []
  | op :: rest =>
      match step p s op with
      | Done s1 out1 =>
          match run p s1 rest with
          | Done s2 out2 => Done s2 (out1 ++ out2)
          | Raised e s2 => Raised e s2
          end
      | Raised e s1 => Raised e s1
      end
  end.

(** A time sample followed by one timer tick, for each sample of [ts]. *)
Definition ticks_at (ts : list R) : list Op :=
  flat_map (fun t => [SimTime t; Tick]) ts.

(** The range in which [wrap_to_pi] keeps the heading on real numbers,
    where the upper end [PI] does not occur. *)
Definition theta_in_range (s : State) : Prop := - PI <= theta s < PI.

(** Every tick of [ticks_at ts] from [s] passes the clock tests. *)
Fixpoint all_ready (p : Params) (s : State) (ts : list R) : Prop :=
  match ts with
  | [] => True
  | t :: rest =>
      (exists dt, clock_gate p (sim_time_callback t s) = Ready dt) /\
      all_ready p (state_of (update_odometry p (sim_time_callback t s))) rest
  end.

(** The baseline is set and is at least [b]. *)
Definition baseline_from (b : R) (s : State) : Prop :=
  exists b', last_sim_time s = Some b' /\ b <= b'.

(** The events of a run in the order sent, those sent before an
    exception included. *)
Fixpoint trace (p : Params) (s : State) (ops : list Op) : list Event :=
  match ops with
  | [] => []
  | op :: rest =>
      match step p s op with
      | Done s1 out1 => out1 ++ trace p s1 rest
      | Raised _ _ => []
      end
  end.

Definition is_tick (op : Op) : bool :=
  match op with
  | Tick => true
  | _ => false
  end.

Definition count_ticks (ops : list Op) : nat :=
  List.length (filter is_tick ops).

(** The odometry messages among the events. *)
Fixpoint published (out : list Event) : list Odometry :=
  match out with
  | [] => []
  | Publish odom_msg :: rest => odom_msg :: published rest
  | _ :: rest => published rest
  end.

(** The transforms among the events. *)
Fixpoint broadcast (out : list Event) : list TransformStamped :=
  match out with
  | [] => []
  | SendTransform t :: rest => t :: broadcast rest
  | _ :: rest => broadcast rest
  end.

(** The transform that carries the pose of an odometry message. *)
Definition transform_of (m : Odometry) : TransformStamped :=
  mkTransformStamped (odom_header m) (odom_child_frame_id m)
                     (mkVector3 (pt_x (odom_position m))
                                (pt_y (odom_position m))
                                (pt_z (odom_position m)))
                     (odom_orientation m).

(** The stamps, in seconds, of the odometry messages among the events. *)
Definition odom_stamps (out : list Event) : list R :=
  map (fun odom_msg => seconds (stamp (odom_header odom_msg))) (published out).

(** Each element of [l] is at least [gap] above the one before it, the
    first one at least [gap] above [lo]. *)
Fixpoint chain (gap lo : R) (l : list R) : Prop :=
  match l with
  | [] => True
  | a :: rest => lo + gap <= a /\ chain gap a rest
  end.

Definition spaced (gap : R) (l : list R) : Prop :=
  match l with
  | [] => True
  | a :: rest => chain gap a rest
  end.

(** A planar odometry message: frames odom and base_footprint, height 0,
    a unit quaternion about the vertical axis with [w] not negative, and
    a twist with a forward and a yaw component only. *)
Definition planar_odometry (m : Odometry) : Prop :=
  frame_id (odom_header m) = "odom"%string /\
  odom_child_frame_id m = "base_footprint"%string /\
  pt_z (odom_position m) = 0 /\
  quat_x (odom_orientation m) = 0 /\
  quat_y (odom_orientation m) = 0 /\
  quat_z (odom_orientation m) * quat_z (odom_orientation m) +
  quat_w (odom_orientation m) * quat_w (odom_orientation m) = 1 /\
  0 <= quat_w (odom_orientation m) /\
  v3_y (odom_twist_linear m) = 0 /\ v3_z (odom_twist_linear m) = 0 /\
  v3_x (odom_twist_angular m) = 0 /\ v3_y (odom_twist_angular m) = 0.

(** [V] of [update_odometry] (lines 144-148). *)
Definition body_linear (p : Params) (s : State) : R :=
  0.5 * (wheel_radius p * omega_r s + wheel_radius p * omega_l s).

(** [Omega] of [update_odometry] (lines 144-149), for a wheel base that is
    not zero. *)
Definition body_angular (p : Params) (s : State) : R :=
  (wheel_radius p * omega_r s - wheel_radius p * omega_l s) / wheel_base p.

(** *** Sample configurations *)

(** The parameter values declared in [__init__] (lines 47-50). *)
Definition default_params : Params := mkParams 0.119 0.027 40 0.01.

(** Wheels of radius 1 m that are 2 m apart. *)
Definition wide_params : Params := mkParams 2 1 40 0.01.

(** A node at the origin, one second after its baseline, with the given
    wheel speeds. *)
Definition rolling (w_r w_l : R) : State :=
  mkState 0 0 0 w_r w_l (Some 1) (Some 0).

(** A node at rest that faces backwards, its heading at the upper end
    [PI], one second after its baseline. *)
Definition facing_back : State :=
  mkState 0 0 PI 0 0 (Some 1) (Some 0).

(** Half a turn on the spot: the wheels turn against each other for [PI]
    seconds of simulation time. *)
Definition half_turn : list Op :=
  [SimTime 0; Tick; RightWheel 1; LeftWheel (-1); SimTime PI; Tick].

End DeadReckoning.

Import DeadReckoning.

(** ** Facts on truncation and [fmod] *)

Lemma Int_part_bounds (r : R) : IZR (Int_part r) <= r < IZR (Int_part r) + 1.
Proof.
  destruct (base_Int_part r) as [Hle Hgt]. split; lra.
Qed.

Lemma Int_part_IZR (z : Z) : Int_part (IZR z) = z.
Proof.
  symmetry. apply Int_part_spec. split; lra.
Qed.

Lemma Int_part_unit (r : R) : 0 <= r < 1 -> Int_part r = 0%Z.
Proof.
  intros Hr. symmetry. apply Int_part_spec. simpl. split; lra.
Qed.

Lemma Rtrunc_nonneg (r : R) :
  0 <= r -> IZR (Rtrunc r) <= r < IZR (Rtrunc r) + 1.
Proof.
  intros Hr. unfold Rtrunc. destruct (Rle_dec 0 r) as [_ | Hn].
  - apply Int_part_bounds.
  - contradiction.
Qed.

Lemma Rtrunc_neg (r : R) :
  r < 0 -> IZR (Rtrunc r) - 1 < r <= IZR (Rtrunc r).
Proof.
  intros Hr. unfold Rtrunc. destruct (Rle_dec 0 r) as [Hp | _].
  - lra.
  - rewrite opp_IZR. pose proof (Int_part_bounds (- r)). lra.
Qed.

Lemma Rtrunc_IZR (z : Z) : Rtrunc (IZR z) = z.
Proof.
  unfold Rtrunc. destruct (Rle_dec 0 (IZR z)) as [_ | _].
  - apply Int_part_IZR.
  - rewrite <- opp_IZR, Int_part_IZR. lia.
Qed.

Lemma Rtrunc_unit (r : R) : 0 <= r < 1 -> Rtrunc r = 0%Z.
Proof.
  intros Hr. unfold Rtrunc. destruct (Rle_dec 0 r) as [_ | Hn].
  - now apply Int_part_unit.
  - lra.
Qed.

Section Fmod.

Variables x y : R.
Hypothesis y_pos : 0 < y.

Lemma quotient_eq : x = x / y * y.
Proof. unfold Rdiv. field. lra. Qed.

Lemma fmod_nonneg : 0 <= x -> 0 <= fmod x y < y.
Proof.
  intros Hx. unfold fmod.
  assert (Hq : 0 <= x / y).
  { unfold Rdiv. apply Rmult_le_pos; [assumption |].
    left. now apply Rinv_0_lt_compat. }
  pose proof (Rtrunc_nonneg _ Hq) as [Hlo Hhi].
  pose proof quotient_eq as E.
  split; nra.
Qed.

Lemma fmod_neg : x < 0 -> - y < fmod x y <= 0.
Proof.
  intros Hx. unfold fmod.
  assert (Hq : x / y < 0).
  { unfold Rdiv. pose proof (Rinv_0_lt_compat _ y_pos). nra. }
  pose proof (Rtrunc_neg _ Hq) as [Hlo Hhi].
  pose proof quotient_eq as E.
  split; nra.
Qed.

Lemma fmod_abs : - y < fmod x y < y.
Proof.
  destruct (Rle_or_lt 0 x) as [Hx | Hx].
  - pose proof (fmod_nonneg Hx). lra.
  - pose proof (fmod_neg Hx). lra.
Qed.

Lemma fmod_small : 0 <= x < y -> fmod x y = x.
Proof.
  intros Hx. unfold fmod. rewrite Rtrunc_unit.
  - simpl. lra.
  - unfold Rdiv. pose proof (Rinv_0_lt_compat _ y_pos) as Hi. split.
    + nra.
    + apply (Rmult_lt_reg_r y); [assumption |].
      rewrite Rmult_assoc, Rinv_l by lra. lra.
Qed.

End Fmod.

Lemma fmod_self (y : R) : y <> 0 -> fmod y y = 0.
Proof.
  intros Hy. unfold fmod. replace (y / y) with (IZR 1) by (field; exact Hy).
  rewrite Rtrunc_IZR. lra.
Qed.

(** ** Facts on [wrap_to_pi] *)

Lemma two_PI_pos : 0 < 2 * PI.
Proof. pose proof PI_RGT_0. lra. Qed.

Lemma wrap_to_pi_range (theta : R) : - PI <= wrap_to_pi theta < PI.
Proof.
  unfold wrap_to_pi.
  pose proof (fmod_abs (theta + PI) (2 * PI) two_PI_pos) as Hb.
  destruct (Rlt_dec (fmod (theta + PI) (2 * PI)) 0) as [Hneg | Hpos]; lra.
Qed.

Lemma wrap_to_pi_congruent (theta : R) :
  exists k : Z, wrap_to_pi theta = theta + IZR k * (2 * PI).
Proof.
  unfold wrap_to_pi, fmod.
  set (n := Rtrunc ((theta + PI) / (2 * PI))).
  destruct (Rlt_dec (theta + PI - IZR n * (2 * PI)) 0) as [_ | _].
  - exists (1 - n)%Z. rewrite minus_IZR. lra.
  - exists (- n)%Z. rewrite opp_IZR. lra.
Qed.

Lemma wrap_to_pi_fixed (theta : R) :
  - PI <= theta < PI -> wrap_to_pi theta = theta.
Proof.
  intros Ht. unfold wrap_to_pi.
  rewrite (fmod_small _ _ two_PI_pos) by lra.
  destruct (Rlt_dec (theta + PI) 0) as [Hneg | _]; lra.
Qed.

(** [wrap_to_pi theta] is the only angle of the range that differs from
    [theta] by whole turns. *)
Lemma wrap_to_pi_unique (theta r : R) (k : Z) :
  - PI <= r < PI -> r = theta + IZR k * (2 * PI) -> wrap_to_pi theta = r.
Proof.
  intros Hr Hk.
  destruct (wrap_to_pi_congruent theta) as [k' Hk'].
  pose proof (wrap_to_pi_range theta) as Hw.
  pose proof PI_RGT_0 as Hpi.
  assert (Hd : wrap_to_pi theta - r = IZR (k' - k) * (2 * PI)).
  { rewrite minus_IZR. lra. }
  assert (Hz : (k' - k = 0)%Z).
  { assert (Hlo : (-1 < k' - k)%Z) by (apply lt_IZR; nra).
    assert (Hhi : (k' - k < 1)%Z) by (apply lt_IZR; nra).
    lia. }
  rewrite Hz in Hd. lra.
Qed.

Example wrap_to_pi_zero : wrap_to_pi 0 = 0.
Proof.
  apply wrap_to_pi_fixed. pose proof PI_RGT_0. lra.
Qed.

Example wrap_to_pi_three_quarter_turn : wrap_to_pi (3 * PI / 2) = - PI / 2.
Proof.
  apply (wrap_to_pi_unique _ _ (-1)); pose proof PI_RGT_0; lra.
Qed.

Example wrap_to_pi_back_three_quarter_turn :
  wrap_to_pi (- 3 * PI / 2) = PI / 2.
Proof.
  apply (wrap_to_pi_unique _ _ 1); pose proof PI_RGT_0; lra.
Qed.

Lemma wrap_to_pi_PI : wrap_to_pi PI = - PI.
Proof.
  unfold wrap_to_pi. replace (PI + PI) with (2 * PI) by lra.
  rewrite fmod_self by (pose proof two_PI_pos; lra).
  destruct (Rlt_dec 0 0) as [Habs | _]; lra.
Qed.

(** ** The clock tests of [update_odometry] *)

Section Tick.

Variable p : Params.

Lemma clock_gate_NotReady_iff (s : State) :
  clock_gate p s = NotReady <->
  sim_time s = None \/
  last_sim_time s = None \/
  exists now last,
    sim_time s = Some now /\ last_sim_time s = Some last /\
    now - last < integration_period p.
Proof.
  unfold clock_gate.
  destruct (sim_time s) as [now |]; [| intuition].
  destruct (last_sim_time s) as [last |]; [| intuition].
  cbv zeta. destruct (Rlt_dec (now - last) (integration_period p)) as [Hlt | Hge].
  - split; [| reflexivity]. intros _. right. right. now exists now, last.
  - split; [discriminate |].
    intros [H | [H | (n & l & Hn & Hl & Hlt)]]; try discriminate.
    injection Hn as <-. injection Hl as <-. contradiction.
Qed.

Lemma clock_gate_Ready_inv (s : State) (dt : R) :
  clock_gate p s = Ready dt ->
  exists now last,
    sim_time s = Some now /\ last_sim_time s = Some last /\
    dt = now - last /\ integration_period p <= dt.
Proof.
  unfold clock_gate.
  destruct (sim_time s) as [now |]; [| discriminate].
  destruct (last_sim_time s) as [last |]; [| discriminate].
  cbv zeta. destruct (Rlt_dec (now - last) (integration_period p)) as [Hlt | Hge];
    [discriminate |].
  intros [= <-]. exists now, last. repeat split; lra.
Qed.

Lemma clock_gate_Ready_intro (s : State) (now last : R) :
  sim_time s = Some now -> last_sim_time s = Some last ->
  integration_period p <= now - last ->
  clock_gate p s = Ready (now - last).
Proof.
  intros Hn Hl Hge. unfold clock_gate. rewrite Hn, Hl. cbv zeta.
  destruct (Rlt_dec (now - last) (integration_period p)) as [Hlt | _];
    [lra | reflexivity].
Qed.

Lemma update_odometry_not_ready (s : State) :
  clock_gate p s = NotReady ->
  exists s',
    update_odometry p s = Done s' [] /\
    x s' = x s /\ y s' = y s /\ theta s' = theta s /\
    omega_r s' = omega_r s /\ omega_l s' = omega_l s /\
    sim_time s' = sim_time s.
Proof.
  unfold clock_gate, update_odometry.
  destruct (sim_time s) as [now |] eqn:Hn.
  - destruct (last_sim_time s) as [last |].
    + cbv zeta.
      destruct (Rlt_dec (now - last) (integration_period p)); [| discriminate].
      intros _. exists s. now rewrite Hn.
    + intros _. exists (set_last_sim_time (Some now) s). simpl. now rewrite Hn.
  - intros _. exists s. now rewrite Hn.
Qed.

Lemma update_odometry_ready (s : State) (now last : R) :
  sim_time s = Some now -> last_sim_time s = Some last ->
  integration_period p <= now - last ->
  update_odometry p s =
  integrate p (set_last_sim_time (Some now) s) now (now - last).
Proof.
  intros Hn Hl Hge. unfold update_odometry. rewrite Hn, Hl. cbv zeta.
  destruct (Rlt_dec (now - last) (integration_period p)) as [Hlt | _];
    [lra | reflexivity].
Qed.

Lemma integrate_last_sim_time (s : State) (now dt : R) :
  last_sim_time (state_of (integrate p s now dt)) = last_sim_time s.
Proof.
  unfold integrate. now destruct (Req_dec_T (wheel_base p) 0).
Qed.

Lemma integrate_theta_in_range (s : State) (now dt : R) :
  theta_in_range s -> theta_in_range (state_of (integrate p s now dt)).
Proof.
  intros Hs. unfold integrate. destruct (Req_dec_T (wheel_base p) 0).
  - exact Hs.
  - apply wrap_to_pi_range.
Qed.

(** With a wheel base that is not zero, [integrate] returns: the pose it
    leaves, the twist it reports and the three events it sends. *)
Lemma integrate_returns (s : State) (now dt : R) :
  wheel_base p <> 0 ->
  let V := 0.5 * (wheel_radius p * omega_r s + wheel_radius p * omega_l s) in
  let Omega :=
    (wheel_radius p * omega_r s - wheel_radius p * omega_l s) / wheel_base p in
  let s' :=
    set_pose (x s + V * cos (theta s) * dt) (y s + V * sin (theta s) * dt)
             (wrap_to_pi (theta s + Omega * dt)) s in
  let quat := euler2quat 0 0 (theta s') in
  let q := mkQuaternion (q1 quat) (q2 quat) (q3 quat) (q0 quat) in
  let header := mkHeader (Time_to_msg now) "odom" in
  integrate p s now dt =
  Done s'
    [Publish (mkOdometry header "base_footprint" (mkPoint (x s') (y s') 0) q
                         (mkVector3 V 0 0) (mkVector3 0 0 Omega));
     SendTransform (mkTransformStamped header "base_footprint"
                                       (mkVector3 (x s') (y s') 0) q);
     LogInfo (x s') (y s') (theta s')].
Proof.
  intros Hwb. unfold integrate.
  destruct (Req_dec_T (wheel_base p) 0) as [Hz | _]; [contradiction |].
  reflexivity.
Qed.

Lemma update_odometry_theta_in_range (s : State) :
  theta_in_range s -> theta_in_range (state_of (update_odometry p s)).
Proof.
  intros Hs. unfold update_odometry.
  destruct (sim_time s) as [now |]; [| exact Hs].
  destruct (last_sim_time s) as [last |]; [| exact Hs].
  cbv zeta. destruct (Rlt_dec (now - last) (integration_period p)).
  - exact Hs.
  - now apply integrate_theta_in_range.
Qed.

Lemma step_theta_in_range (s : State) (op : Op) :
  theta_in_range s -> theta_in_range (state_of (step p s op)).
Proof.
  intros Hs. destruct op; simpl; try exact Hs.
  now apply update_odometry_theta_in_range.
Qed.

(** The state a run ends in is the state its last step ends in. *)
Lemma run_state_ind (Inv : State -> Prop) :
  (forall s op, Inv s -> Inv (state_of (step p s op))) ->
  forall ops s, Inv s -> Inv (state_of (run p s ops)).
Proof.
  intros Hstep ops. induction ops as [| op rest IH]; intros s Hs.
  - exact Hs.
  - simpl. specialize (Hstep s op Hs).
    destruct (step p s op) as [s1 out1 | e s1]; simpl in Hstep.
    + specialize (IH s1 Hstep).
      destruct (run p s1 rest) as [s2 out2 | e s2]; exact IH.
    + exact Hstep.
Qed.

Lemma run_theta_in_range (ops : list Op) (s : State) :
  theta_in_range s -> theta_in_range (state_of (run p s ops)).
Proof.
  apply run_state_ind. intros s0 op. apply step_theta_in_range.
Qed.

End Tick.

Lemma init_theta_in_range : theta_in_range init.
Proof.
  unfold theta_in_range. simpl. pose proof PI_RGT_0. lra.
Qed.

(** ** The wrap law *)

Lemma wrap_to_pi_closed (theta : R) : - PI <= wrap_to_pi theta <= PI.
Proof.
  pose proof (wrap_to_pi_range theta). lra.
Qed.




(** C9, as the code has it: for every angle [theta], [wrap_to_pi theta]
    lies in the range from [-PI] to [PI], both ends included, and both
    ends occur. [wrap_to_pi PI] is [-PI], on real numbers and on doubles;
    and on doubles [math.pi] itself is returned, for the double just below
    [- math.pi]. *)
Theorem wrap_to_pi_closed_range :
  (forall theta : R, - PI <= wrap_to_pi theta <= PI) /\
  wrap_to_pi PI = - PI /\
  Binary64.wrap_to_pi Binary64.pi = PrimFloat.opp Binary64.pi /\
  Binary64.wrap_to_pi Binary64.below_minus_pi = Binary64.pi.
Proof.
  split; [exact wrap_to_pi_closed |].
  split; [exact wrap_to_pi_PI |].
  split; vm_compute; reflexivity.
Qed.

(** C9 fails as stated: on doubles [wrap_to_pi] returns [math.pi] itself
    for the double just below [- math.pi], where the sum [result + 2 * pi]
    rounds up to [2 * pi]; the result is not below [math.pi]. *)
Lemma wrap_to_pi_returns_pi :
  ~ (PrimFloat.ltb (Binary64.wrap_to_pi Binary64.below_minus_pi) Binary64.pi
     = true) /\
  Binary64.wrap_to_pi Binary64.below_minus_pi = Binary64.pi.
Proof.
  split.
  - vm_compute. discriminate.
  - vm_compute. reflexivity.
Qed.

(** ** One tick of the integrator *)

Lemma default_wheel_base : wheel_base default_params <> 0.
Proof. simpl. lra. Qed.

Lemma rolling_ready (w_r w_l : R) :
  clock_gate default_params (rolling w_r w_l) = Ready (1 - 0).
Proof.
  apply clock_gate_Ready_intro; try reflexivity. simpl. lra.
Qed.

(** C2: on a tick that passes the clock tests, with [dt] the time since the
    baseline, the node returns with [x] and [y] advanced by
    [V * cos theta * dt] and [V * sin theta * dt] and the heading set to
    [wrap_to_pi (theta + Omega * dt)], where [V] is the mean of the two
    wheel rim speeds, [Omega] their difference over the wheel base, and
    [theta] the heading before the tick. The wheel base, a divisor, is not
    zero. *)
Theorem update_odometry_euler_step (p : Params) (s : State) (now last : R) :
  wheel_base p <> 0 ->
  sim_time s = Some now ->
  last_sim_time s = Some last ->
  integration_period p <= now - last ->
  let dt := now - last in
  let v_r := wheel_radius p * omega_r s in
  let v_l := wheel_radius p * omega_l s in
  let V := (v_r + v_l) / 2 in
  let Omega := (v_r - v_l) / wheel_base p in
  exists s' out,
    update_odometry p s = Done s' out /\
    x s' = x s + V * cos (theta s) * dt /\
    y s' = y s + V * sin (theta s) * dt /\
    theta s' = wrap_to_pi (theta s + Omega * dt).
Proof.
  intros Hwb Hn Hl Hge dt v_r v_l V Omega.
  rewrite (update_odometry_ready p s now last Hn Hl Hge).
  rewrite integrate_returns by exact Hwb.
  eexists. eexists. split; [reflexivity |].
  subst dt v_r v_l V Omega. simpl. repeat split; f_equal; lra.
Qed.

Lemma update_odometry_euler_step_witness :
  exists s' out,
    update_odometry default_params (rolling 2 1) = Done s' out /\
    x s' = 0 + (0.027 * 2 + 0.027 * 1) / 2 * cos 0 * (1 - 0) /\
    y s' = 0 + (0.027 * 2 + 0.027 * 1) / 2 * sin 0 * (1 - 0) /\
    theta s' = wrap_to_pi (0 + (0.027 * 2 - 0.027 * 1) / 0.119 * (1 - 0)).
Proof.
  apply (update_odometry_euler_step default_params (rolling 2 1) 1 0).
  - exact default_wheel_base.
  - reflexivity.
  - reflexivity.
  - simpl. lra.
Defined.

(** C3: the clock tests of a tick. With no simulation time yet the tick
    returns at once and changes nothing. With a simulation time and no
    baseline it stores the time as baseline and returns. With both, and
    [dt] their difference: below the integration period the tick returns
    and changes nothing, the baseline included; otherwise the baseline
    becomes the simulation time and the tick integrates over that [dt]. *)
Theorem update_odometry_clock_protocol (p : Params) (s : State) :
  (sim_time s = None ->
   clock_gate p s = NotReady /\ update_odometry p s = Done s []) /\
  (forall now,
      sim_time s = Some now -> last_sim_time s = None ->
      clock_gate p s = NotReady /\
      update_odometry p s = Done (set_last_sim_time (Some now) s) []) /\
  (forall now last,
      sim_time s = Some now -> last_sim_time s = Some last ->
      now - last < integration_period p ->
      clock_gate p s = NotReady /\ update_odometry p s = Done s []) /\
  (forall now last,
      sim_time s = Some now -> last_sim_time s = Some last ->
      integration_period p <= now - last ->
      clock_gate p s = Ready (now - last) /\
      update_odometry p s =
      integrate p (set_last_sim_time (Some now) s) now (now - last) /\
      last_sim_time (state_of (update_odometry p s)) = Some now).
Proof.
  split; [| split; [| split]].
  - intros Hn. unfold clock_gate, update_odometry. now rewrite Hn.
  - intros now Hn Hl. unfold clock_gate, update_odometry. now rewrite Hn, Hl.
  - intros now last Hn Hl Hlt. split.
    + apply clock_gate_NotReady_iff. right. right. now exists now, last.
    + unfold update_odometry. rewrite Hn, Hl. cbv zeta.
      destruct (Rlt_dec (now - last) (integration_period p)) as [_ | Hge];
        [reflexivity | contradiction].
  - intros now last Hn Hl Hge. split; [| split].
    + now apply clock_gate_Ready_intro.
    + now apply update_odometry_ready.
    + rewrite (update_odometry_ready p s now last Hn Hl Hge).
      now rewrite integrate_last_sim_time.
Qed.

Lemma update_odometry_clock_protocol_witness :
  clock_gate default_params (rolling 2 1) = Ready (1 - 0) /\
  update_odometry default_params (rolling 2 1) =
  integrate default_params (set_last_sim_time (Some 1) (rolling 2 1)) 1
            (1 - 0) /\
  last_sim_time (state_of (update_odometry default_params (rolling 2 1))) =
  Some 1.
Proof.
  destruct (update_odometry_clock_protocol default_params (rolling 2 1))
    as (_ & _ & _ & Hready).
  apply (Hready 1 0).
  - reflexivity.
  - reflexivity.
  - simpl. lra.
Defined.

(** C4: on a tick that does not pass the clock tests (no simulation time,
    baseline stored by this tick, or too little time since the baseline)
    the node returns with [x], [y] and [theta] as they were and sends
    nothing: no odometry message and no transform. *)
Theorem update_odometry_not_ready_noop (p : Params) (s : State) :
  clock_gate p s = NotReady ->
  exists s',
    update_odometry p s = Done s' [] /\
    x s' = x s /\ y s' = y s /\ theta s' = theta s.
Proof.
  intros Hgate.
  destruct (update_odometry_not_ready p s Hgate)
    as (s' & Hrun & Hx & Hy & Ht & _).
  exists s'. auto.
Qed.

Lemma update_odometry_not_ready_noop_witness :
  exists s',
    update_odometry default_params (sim_time_callback 5 init) = Done s' [] /\
    x s' = 0 /\ y s' = 0 /\ theta s' = 0.
Proof.
  apply (update_odometry_not_ready_noop default_params
                                        (sim_time_callback 5 init)).
  reflexivity.
Defined.

(** ** The heading stays wrapped *)

(** C5, as the code has it: the heading lies in the range from [-PI] to
    [PI], both ends included, when the node starts and after every run of
    callbacks (wheel speeds, simulation time, timer ticks) from there. *)
Theorem theta_in_range_invariant (p : Params) (ops : list Op) :
  - PI <= theta init <= PI /\
  - PI <= theta (state_of (run p init ops)) <= PI.
Proof.
  pose proof init_theta_in_range as H0.
  pose proof (run_theta_in_range p ops init H0) as Hrun.
  unfold theta_in_range in H0, Hrun. split; lra.
Qed.

(** On doubles the upper end occurs as a heading too: from heading 0 the
    sum [theta + Omega * dt] can be the double just below [- math.pi], and
    the step leaves [math.pi]. *)
Example heading_step_reaches_pi :
  Binary64.heading_step Binary64.above_pi PrimFloat.one
                        (PrimFloat.opp PrimFloat.one) PrimFloat.zero
                        PrimFloat.zero PrimFloat.one =
  Some Binary64.pi.
Proof. vm_compute. reflexivity. Qed.

Lemma half_turn_theta :
  theta (state_of (run wide_params init half_turn)) = - PI.
Proof.
  assert (Hpi : 3 < PI) by (pose proof PI2_3_2; lra).
  unfold half_turn, run, step.
  unfold update_odometry at 1. cbn [sim_time_callback set_sim_time sim_time
    last_sim_time init].
  unfold right_wheel_callback, left_wheel_callback, sim_time_callback.
  rewrite (update_odometry_ready wide_params _ PI 0);
    [| reflexivity | reflexivity | simpl; lra].
  rewrite integrate_returns by (simpl; lra).
  cbn -[wrap_to_pi PI Rmult Rplus Rminus Rdiv cos sin].
  rewrite <- wrap_to_pi_PI. f_equal. field.
Qed.

(** C5 fails as stated: after half a turn on the spot the heading is
    [-PI], which is not in the range open at [-PI] and closed at [PI]. *)
Lemma half_turn_theta_outside :
  ~ (- PI < theta (state_of (run wide_params init half_turn)) <= PI).
Proof.
  rewrite half_turn_theta. intros [Hlt _]. lra.
Qed.

(** ** Standing still *)

Lemma last_cons {A : Type} (a d : A) (l : list A) :
  last (a :: l) d = last l a.
Proof.
  revert a d. induction l as [| b l IH]; intros a d.
  - reflexivity.
  - change (last (a :: b :: l) d) with (last (b :: l) d).
    now rewrite (IH b d), (IH b a).
Qed.

(** One tick that passes the clock tests, with both wheels at rest: the
    position stays and the heading is wrapped once more. *)
Lemma update_odometry_at_rest (p : Params) (s : State) (dt : R) :
  wheel_base p <> 0 ->
  omega_r s = 0 -> omega_l s = 0 ->
  clock_gate p s = Ready dt ->
  exists s' out,
    update_odometry p s = Done s' out /\
    x s' = x s /\ y s' = y s /\ theta s' = wrap_to_pi (theta s) /\
    omega_r s' = 0 /\ omega_l s' = 0 /\
    last_sim_time s' = sim_time s.
Proof.
  intros Hwb Hr Hl Hgate.
  destruct (clock_gate_Ready_inv p s dt Hgate)
    as (now & last & Hn & Hlast & -> & Hge).
  rewrite (update_odometry_ready p s now last Hn Hlast Hge).
  rewrite integrate_returns by exact Hwb.
  eexists. eexists. split; [reflexivity |].
  cbn [x y theta omega_r omega_l sim_time last_sim_time set_pose
       set_last_sim_time].
  rewrite Hr, Hl, Hn.
  replace (0.5 * (wheel_radius p * 0 + wheel_radius p * 0)) with 0 by lra.
  replace ((wheel_radius p * 0 - wheel_radius p * 0) / wheel_base p) with 0
    by (field; exact Hwb).
  repeat split; try lra.
  f_equal. lra.
Qed.

Lemma ticks_at_rest (p : Params) (ts : list R) :
  wheel_base p <> 0 ->
  forall s,
    omega_r s = 0 -> omega_l s = 0 ->
    all_ready p s ts ->
    exists s' out,
      run p s (ticks_at ts) = Done s' out /\
      x s' = x s /\ y s' = y s /\
      (theta_in_range s -> theta s' = theta s) /\
      last_sim_time s' = last (map Some ts) (last_sim_time s).
Proof.
  intros Hwb. induction ts as [| t rest IH]; intros s Hr Hl Hall.
  - exists s, []. repeat split.
  - destruct Hall as [[dt Hgate] Hrest].
    destruct (update_odometry_at_rest p (sim_time_callback t s) dt Hwb
                                      Hr Hl Hgate)
      as (s1 & out1 & Hrun1 & Hx1 & Hy1 & Ht1 & Hr1 & Hl1 & Hb1).
    rewrite Hrun1 in Hrest. simpl in Hrest.
    destruct (IH s1 Hr1 Hl1 Hrest)
      as (s2 & out2 & Hrun2 & Hx2 & Hy2 & Ht2 & Hb2).
    exists s2, (out1 ++ out2).
    change (ticks_at (t :: rest)) with (SimTime t :: Tick :: ticks_at rest).
    cbn [run step app]. rewrite Hrun1, Hrun2.
    split; [reflexivity |].
    simpl in Hx1, Hy1, Ht1, Hb1.
    split; [congruence |]. split; [congruence |]. split.
    + intros Hth.
      assert (Hsame : theta s1 = theta s).
      { rewrite Ht1. now apply wrap_to_pi_fixed. }
      rewrite Ht2; [exact Hsame |].
      unfold theta_in_range. rewrite Hsame. exact Hth.
    + rewrite Hb2, Hb1. cbn [map]. now rewrite last_cons.
Qed.

(** C6, as the code has it: with both wheel speeds at zero, a tick that
    passes the clock tests leaves [x] and [y] as they were, wraps the
    heading once more and moves the baseline to the current simulation
    time. A heading from [-PI] up to, not including, [PI] is left as it
    was; a heading of [PI] becomes [-PI]. Any number of such ticks in a
    row leaves [x] and [y] as they were, and a heading below [PI] too; the
    baseline is then the last time sampled. The wheel base, a divisor, is
    not zero. *)
Theorem zero_input_fixed_point (p : Params) (s : State) :
  wheel_base p <> 0 ->
  omega_r s = 0 -> omega_l s = 0 ->
  (forall dt,
      clock_gate p s = Ready dt ->
      exists s' out,
        update_odometry p s = Done s' out /\
        x s' = x s /\ y s' = y s /\
        theta s' = wrap_to_pi (theta s) /\
        (- PI <= theta s < PI -> theta s' = theta s) /\
        (theta s = PI -> theta s' = - PI) /\
        last_sim_time s' = sim_time s) /\
  (forall ts,
      all_ready p s ts ->
      exists s' out,
        run p s (ticks_at ts) = Done s' out /\
        x s' = x s /\ y s' = y s /\
        (- PI <= theta s < PI -> theta s' = theta s) /\
        last_sim_time s' = last (map Some ts) (last_sim_time s)).
Proof.
  intros Hwb Hr Hl. split.
  - intros dt Hgate.
    destruct (update_odometry_at_rest p s dt Hwb Hr Hl Hgate)
      as (s' & out & Hrun & Hx & Hy & Ht & _ & _ & Hb).
    exists s', out. repeat split; try assumption.
    + intros Hth. rewrite Ht. now apply wrap_to_pi_fixed.
    + intros Hpi. rewrite Ht, Hpi. exact wrap_to_pi_PI.
  - intros ts Hall. now apply ticks_at_rest.
Qed.

Lemma zero_input_fixed_point_witness :
  exists s' out,
    run default_params (rolling 0 0) (ticks_at [2; 3]) = Done s' out /\
    x s' = 0 /\ y s' = 0 /\
    (- PI <= 0 < PI -> theta s' = 0) /\
    last_sim_time s' = Some 3.
Proof.
  destruct (zero_input_fixed_point default_params (rolling 0 0))
    as [_ Hrun].
  - exact default_wheel_base.
  - reflexivity.
  - reflexivity.
  - apply (Hrun [2; 3]). split.
    + exists (2 - 0). apply clock_gate_Ready_intro; try reflexivity.
      simpl. lra.
    + rewrite (update_odometry_ready default_params _ 2 0);
        [| reflexivity | reflexivity | simpl; lra].
      rewrite integrate_returns by exact default_wheel_base.
      split; [| exact I].
      exists (3 - 2). apply clock_gate_Ready_intro; try reflexivity.
      simpl. lra.
Defined.

Lemma facing_back_ready : clock_gate default_params facing_back = Ready (1 - 0).
Proof.
  apply clock_gate_Ready_intro; try reflexivity. simpl. lra.
Qed.

(** C6 fails as stated: a node at rest whose heading is [PI] does not keep
    it over a tick that passes the clock tests; the tick leaves [-PI]. *)
Lemma zero_input_turns_pi :
  omega_r facing_back = 0 /\ omega_l facing_back = 0 /\
  clock_gate default_params facing_back = Ready (1 - 0) /\
  theta (state_of (update_odometry default_params facing_back)) <>
  theta facing_back.
Proof.
  split; [reflexivity |]. split; [reflexivity |].
  split; [exact facing_back_ready |].
  destruct (update_odometry_at_rest default_params facing_back (1 - 0)
              default_wheel_base eq_refl eq_refl facing_back_ready)
    as (s' & out & Hrun & _ & _ & Ht & _).
  rewrite Hrun. cbn [state_of]. rewrite Ht. cbn [theta facing_back].
  rewrite wrap_to_pi_PI. pose proof PI_RGT_0. lra.
Qed.

(** On doubles as well: a step with both wheels at rest takes the heading
    [math.pi] to [- math.pi]. *)
Example heading_step_at_rest_turns_pi :
  Binary64.heading_step PrimFloat.one PrimFloat.one
                        PrimFloat.zero PrimFloat.zero Binary64.pi
                        PrimFloat.one =
  Some (PrimFloat.opp Binary64.pi).
Proof. vm_compute. reflexivity. Qed.

(** ** What a tick sends *)

Lemma euler2quat_yaw (yaw : R) :
  euler2quat 0 0 yaw = mkQuat4 (cos (yaw / 2)) 0 0 (sin (yaw / 2)).
Proof.
  unfold euler2quat. replace (0 / 2) with 0 by lra.
  rewrite cos_0, sin_0. f_equal; ring.
Qed.

(** C7: on a tick that passes the clock tests the node returns, and the
    orientation of the odometry message and the rotation of the transform
    are both the quaternion of roll 0, pitch 0 and yaw [theta], that is
    [w = cos (theta / 2)], [x = 0], [y = 0], [z = sin (theta / 2)], for
    the heading [theta] after the step. The wheel base, a divisor, is not
    zero. *)
Theorem update_odometry_orientation (p : Params) (s : State) (dt : R) :
  wheel_base p <> 0 ->
  clock_gate p s = Ready dt ->
  exists s' odom_msg t line,
    update_odometry p s = Done s' [Publish odom_msg; SendTransform t; line] /\
    let quat := euler2quat 0 0 (theta s') in
    odom_orientation odom_msg =
    mkQuaternion (q1 quat) (q2 quat) (q3 quat) (q0 quat) /\
    odom_orientation odom_msg =
    mkQuaternion 0 0 (sin (theta s' / 2)) (cos (theta s' / 2)) /\
    tf_rotation t = odom_orientation odom_msg.
Proof.
  intros Hwb Hgate.
  destruct (clock_gate_Ready_inv p s dt Hgate)
    as (now & last & Hn & Hlast & -> & Hge).
  rewrite (update_odometry_ready p s now last Hn Hlast Hge).
  rewrite integrate_returns by exact Hwb.
  do 4 eexists. split; [reflexivity |].
  cbv zeta. cbn [odom_orientation tf_rotation].
  split; [reflexivity |]. split; [| reflexivity].
  now rewrite euler2quat_yaw.
Qed.

Lemma update_odometry_orientation_witness :
  exists s' odom_msg t line,
    update_odometry default_params (rolling 2 1) =
    Done s' [Publish odom_msg; SendTransform t; line] /\
    let quat := euler2quat 0 0 (theta s') in
    odom_orientation odom_msg =
    mkQuaternion (q1 quat) (q2 quat) (q3 quat) (q0 quat) /\
    odom_orientation odom_msg =
    mkQuaternion 0 0 (sin (theta s' / 2)) (cos (theta s' / 2)) /\
    tf_rotation t = odom_orientation odom_msg.
Proof.
  apply (update_odometry_orientation default_params (rolling 2 1) (1 - 0)).
  - exact default_wheel_base.
  - apply rolling_ready.
Defined.

(** C8: a tick that passes the clock tests sends one odometry message and
    one transform (and a log line). Both are stamped with the simulation
    time of the step and go from frame odom to frame base_footprint. The
    odometry message carries the position [(x, y, 0)], the orientation
    quaternion, the linear velocity [(V, 0, 0)] and the angular velocity
    [(0, 0, Omega)]; the transform carries the same stamp, the position as
    translation and the same quaternion as rotation. The wheel base, a
    divisor, is not zero. *)
Theorem update_odometry_emits (p : Params) (s : State) (now dt : R) :
  wheel_base p <> 0 ->
  sim_time s = Some now ->
  clock_gate p s = Ready dt ->
  let v_r := wheel_radius p * omega_r s in
  let v_l := wheel_radius p * omega_l s in
  let V := (v_r + v_l) / 2 in
  let Omega := (v_r - v_l) / wheel_base p in
  exists s' odom_msg t,
    update_odometry p s =
    Done s' [Publish odom_msg; SendTransform t;
             LogInfo (x s') (y s') (theta s')] /\
    sim_time s' = Some now /\
    let quat := euler2quat 0 0 (theta s') in
    let q := mkQuaternion (q1 quat) (q2 quat) (q3 quat) (q0 quat) in
    odom_header odom_msg = mkHeader (Time_to_msg now) "odom" /\
    odom_child_frame_id odom_msg = "base_footprint"%string /\
    odom_position odom_msg = mkPoint (x s') (y s') 0 /\
    odom_orientation odom_msg = q /\
    odom_twist_linear odom_msg = mkVector3 V 0 0 /\
    odom_twist_angular odom_msg = mkVector3 0 0 Omega /\
    tf_header t = mkHeader (Time_to_msg now) "odom" /\
    tf_child_frame_id t = "base_footprint"%string /\
    tf_translation t = mkVector3 (x s') (y s') 0 /\
    tf_rotation t = q.
Proof.
  intros Hwb Hn Hgate v_r v_l V Omega.
  destruct (clock_gate_Ready_inv p s dt Hgate)
    as (now' & last & Hn' & Hlast & -> & Hge).
  assert (now' = now) as -> by congruence.
  rewrite (update_odometry_ready p s now last Hn Hlast Hge).
  rewrite integrate_returns by exact Hwb.
  do 3 eexists. split; [reflexivity |].
  cbn [sim_time set_pose set_last_sim_time]. split; [exact Hn |].
  cbv zeta.
  cbn [odom_header odom_child_frame_id odom_position odom_orientation
       odom_twist_linear odom_twist_angular tf_header tf_child_frame_id
       tf_translation tf_rotation].
  repeat split.
  subst V v_r v_l. cbn [omega_r omega_l set_last_sim_time]. f_equal. lra.
Qed.

Lemma update_odometry_emits_witness :
  exists s' odom_msg t,
    update_odometry default_params (rolling 2 1) =
    Done s' [Publish odom_msg; SendTransform t;
             LogInfo (x s') (y s') (theta s')] /\
    sim_time s' = Some 1 /\
    let quat := euler2quat 0 0 (theta s') in
    let q := mkQuaternion (q1 quat) (q2 quat) (q3 quat) (q0 quat) in
    odom_header odom_msg = mkHeader (Time_to_msg 1) "odom" /\
    odom_child_frame_id odom_msg = "base_footprint"%string /\
    odom_position odom_msg = mkPoint (x s') (y s') 0 /\
    odom_orientation odom_msg = q /\
    odom_twist_linear odom_msg =
    mkVector3 ((0.027 * 2 + 0.027 * 1) / 2) 0 0 /\
    odom_twist_angular odom_msg =
    mkVector3 0 0 ((0.027 * 2 - 0.027 * 1) / 0.119) /\
    tf_header t = mkHeader (Time_to_msg 1) "odom" /\
    tf_child_frame_id t = "base_footprint"%string /\
    tf_translation t = mkVector3 (x s') (y s') 0 /\
    tf_rotation t = q.
Proof.
  apply (update_odometry_emits default_params (rolling 2 1) 1 (1 - 0)).
  - exact default_wheel_base.
  - reflexivity.
  - apply rolling_ready.
Defined.

(** ** The baseline never goes back *)

Section Baseline.

Variable p : Params.
Hypothesis period_nonneg : 0 <= integration_period p.

Lemma update_odometry_baseline (b : R) (s : State) :
  baseline_from b s -> baseline_from b (state_of (update_odometry p s)).
Proof.
  intros (b' & Hb' & Hle). unfold update_odometry.
  destruct (sim_time s) as [now |]; [| now exists b'].
  rewrite Hb'. cbv zeta.
  destruct (Rlt_dec (now - b') (integration_period p)) as [Hlt | Hge].
  - now exists b'.
  - unfold baseline_from. rewrite integrate_last_sim_time.
    exists now. split; [reflexivity | lra].
Qed.

Lemma step_baseline (b : R) (s : State) (op : Op) :
  baseline_from b s -> baseline_from b (state_of (step p s op)).
Proof.
  intros Hs. destruct op; simpl; try exact Hs.
  now apply update_odometry_baseline.
Qed.

Lemma run_baseline (b : R) (ops : list Op) (s : State) :
  baseline_from b s -> baseline_from b (state_of (run p s ops)).
Proof.
  apply run_state_ind. intros s0 op. apply step_baseline.
Qed.

Lemma backward_jump_not_ready (b t : R) (s : State) :
  last_sim_time s = Some b -> t < b ->
  clock_gate p (sim_time_callback t s) = NotReady /\
  last_sim_time (state_of (update_odometry p (sim_time_callback t s))) =
  Some b.
Proof.
  intros Hb Hlt.
  assert (Hgate : clock_gate p (sim_time_callback t s) = NotReady).
  { apply clock_gate_NotReady_iff. right. right. exists t, b.
    simpl. repeat split; [exact Hb | lra]. }
  split; [exact Hgate |].
  unfold update_odometry. cbn [sim_time last_sim_time sim_time_callback
    set_sim_time]. rewrite Hb. cbv zeta.
  destruct (Rlt_dec (t - b) (integration_period p)) as [_ | Hge];
    [exact Hb | lra].
Qed.

Lemma ready_advances_baseline (b dt : R) (s : State) :
  last_sim_time s = Some b ->
  clock_gate p s = Ready dt ->
  last_sim_time (state_of (update_odometry p s)) = Some (b + dt) /\
  integration_period p <= dt.
Proof.
  intros Hb Hgate.
  destruct (clock_gate_Ready_inv p s dt Hgate)
    as (now & last & Hn & Hlast & -> & Hge).
  assert (last = b) as -> by congruence.
  rewrite (update_odometry_ready p s now b Hn Hlast Hge).
  rewrite integrate_last_sim_time. simpl.
  split; [f_equal; lra | exact Hge].
Qed.

End Baseline.

(** C10: with an integration period that is not negative, a baseline that
    is set stays set and never decreases over any run of callbacks,
    whatever the time samples. A time sample earlier than the baseline
    makes the next tick fail the clock tests and keep the baseline; a tick
    that passes them moves the baseline up by its [dt], which is at least
    the integration period. *)
Theorem baseline_monotone (p : Params) :
  0 <= integration_period p ->
  forall s b,
    last_sim_time s = Some b ->
    (forall ops,
        exists b',
          last_sim_time (state_of (run p s ops)) = Some b' /\ b <= b') /\
    (forall t,
        t < b ->
        clock_gate p (sim_time_callback t s) = NotReady /\
        last_sim_time (state_of (update_odometry p (sim_time_callback t s))) =
        Some b) /\
    (forall dt,
        clock_gate p s = Ready dt ->
        exists b',
          last_sim_time (state_of (update_odometry p s)) = Some b' /\
          b + integration_period p <= b').
Proof.
  intros Hip s b Hb. split; [| split].
  - intros ops. apply (run_baseline p Hip b ops s).
    exists b. split; [exact Hb | lra].
  - intros t Hlt. now apply backward_jump_not_ready.
  - intros dt Hgate.
    destruct (ready_advances_baseline p b dt s Hb Hgate) as [Hnew Hge].
    exists (b + dt). split; [exact Hnew | lra].
Qed.

Lemma baseline_monotone_witness :
  exists b',
    last_sim_time
      (state_of (run default_params (rolling 2 1)
                     [SimTime (-4); Tick; SimTime 3; Tick])) = Some b' /\
    0 <= b'.
Proof.
  destruct (baseline_monotone default_params) with (s := rolling 2 1) (b := 0)
    as [Hrun _].
  - simpl. lra.
  - reflexivity.
  - apply Hrun.
Defined.

(** ** More on [wrap_to_pi] *)

Lemma wrap_to_pi_add_l (a b : R) :
  wrap_to_pi (wrap_to_pi a + b) = wrap_to_pi (a + b).
Proof.
  destruct (wrap_to_pi_congruent a) as [k1 Hk1].
  destruct (wrap_to_pi_congruent (a + b)) as [k2 Hk2].
  apply (wrap_to_pi_unique _ _ (k2 - k1)).
  - apply wrap_to_pi_range.
  - rewrite minus_IZR. lra.
Qed.



(** ** Exceptions *)

(** The state and events of a tick that passes the clock tests, with a
    wheel base that is not zero. *)
Lemma ready_tick (p : Params) (s : State) (now last : R) :
  wheel_base p <> 0 ->
  sim_time s = Some now -> last_sim_time s = Some last ->
  integration_period p <= now - last ->
  exists odom_msg t,
    update_odometry p s =
    Done (mkState
            (x s + body_linear p s * cos (theta s) * (now - last))
            (y s + body_linear p s * sin (theta s) * (now - last))
            (wrap_to_pi (theta s + body_angular p s * (now - last)))
            (omega_r s) (omega_l s) (Some now) (Some now))
         [Publish odom_msg; SendTransform t;
          LogInfo
            (x s + body_linear p s * cos (theta s) * (now - last))
            (y s + body_linear p s * sin (theta s) * (now - last))
            (wrap_to_pi (theta s + body_angular p s * (now - last)))] /\
    odom_header odom_msg = mkHeader (Time_to_msg now) "odom" /\
    planar_odometry odom_msg.
Proof.
  intros Hwb Hn Hl Hge.
  rewrite (update_odometry_ready p s now last Hn Hl Hge).
  rewrite integrate_returns by exact Hwb.
  do 2 eexists. split; [| split].
  - unfold set_pose, set_last_sim_time, body_linear, body_angular.
    cbn [x y theta omega_r omega_l sim_time last_sim_time]. rewrite Hn.
    reflexivity.
  - reflexivity.
  - unfold planar_odometry.
    cbn [odom_header odom_child_frame_id odom_position odom_orientation
         odom_twist_linear odom_twist_angular frame_id pt_z quat_x quat_y
         quat_z quat_w v3_x v3_y v3_z].
    rewrite euler2quat_yaw. cbn [q0 q1 q2 q3 theta set_pose].
    set (h := wrap_to_pi _).
    assert (Hh : - PI <= h < PI) by apply wrap_to_pi_range.
    repeat split.
    + pose proof (sin2_cos2 (h / 2)) as Hsc. unfold Rsqr in Hsc. exact Hsc.
    + apply cos_ge_0; lra.
Qed.

(** X5: with a wheel base of zero, a tick that passes the clock tests
    raises [ZeroDivisionError]: the baseline has moved to the simulation
    time, the pose and the wheel speeds are as they were, and nothing has
    been sent. *)
Theorem update_odometry_zero_wheel_base (p : Params) (s : State) (dt : R) :
  wheel_base p = 0 ->
  clock_gate p s = Ready dt ->
  update_odometry p s =
  Raised ZeroDivisionError (set_last_sim_time (sim_time s) s).
Proof.
  intros Hwb Hgate.
  destruct (clock_gate_Ready_inv p s dt Hgate)
    as (now & last & Hn & Hlast & -> & Hge).
  rewrite (update_odometry_ready p s now last Hn Hlast Hge).
  unfold integrate. rewrite Hn.
  destruct (Req_dec_T (wheel_base p) 0) as [_ | Hnz];
    [reflexivity | contradiction].
Qed.

Lemma update_odometry_zero_wheel_base_witness :
  update_odometry (mkParams 0 0.027 40 0.01) (rolling 2 1) =
  Raised ZeroDivisionError (set_last_sim_time (Some 1) (rolling 2 1)).
Proof.
  apply (update_odometry_zero_wheel_base (mkParams 0 0.027 40 0.01)
                                         (rolling 2 1) (1 - 0)).
  - reflexivity.
  - apply clock_gate_Ready_intro; try reflexivity. simpl. lra.
Defined.

(** ** Runs that do not integrate *)

Lemma step_not_tick (p : Params) (s : State) (op : Op) :
  is_tick op = false ->
  exists s1,
    step p s op = Done s1 [] /\
    x s1 = x s /\ y s1 = y s /\ theta s1 = theta s /\
    last_sim_time s1 = last_sim_time s.
Proof.
  intros Hop. destruct op; try discriminate Hop; eexists;
    (split; [reflexivity | repeat split]).
Qed.

Lemma count_ticks_cons (op : Op) (rest : list Op) :
  count_ticks (op :: rest) =
  ((if is_tick op then 1 else 0) + count_ticks rest)%nat.
Proof.
  unfold count_ticks. cbn [filter]. now destruct (is_tick op).
Qed.

Lemma run_without_tick_aux (p : Params) (ops : list Op) (s : State) :
  count_ticks ops = 0%nat ->
  exists s',
    run p s ops = Done s' [] /\
    x s' = x s /\ y s' = y s /\ theta s' = theta s /\
    last_sim_time s' = last_sim_time s.
Proof.
  revert s. induction ops as [| op rest IH]; intros s Hcount.
  - exists s. repeat split.
  - rewrite count_ticks_cons in Hcount.
    destruct (is_tick op) eqn:Hop; [discriminate Hcount |].
    destruct (step_not_tick p s op Hop) as (s1 & Hstep & Hx1 & Hy1 & Ht1 & Hb1).
    destruct (IH s1 Hcount) as (s' & Hrun & Hx & Hy & Ht & Hb).
    exists s'. cbn [run]. rewrite Hstep, Hrun.
    repeat split; congruence.
Qed.

(** X7: callbacks other than the timer tick only store their sample: a run
    with no tick returns, sends nothing and leaves the pose and the
    baseline as they were, whatever samples arrive. *)
Theorem run_without_tick (p : Params) (ops : list Op) (s : State) :
  count_ticks ops = 0%nat ->
  exists s',
    run p s ops = Done s' [] /\
    x s' = x s /\ y s' = y s /\ theta s' = theta s /\
    last_sim_time s' = last_sim_time s.
Proof.
  apply run_without_tick_aux.
Qed.

Lemma run_without_tick_witness :
  exists s',
    run default_params (rolling 2 1)
        [RightWheel 5; SimTime 9; LeftWheel 3; SimTime 2] = Done s' [] /\
    x s' = 0 /\ y s' = 0 /\ theta s' = 0 /\
    last_sim_time s' = Some 0.
Proof.
  apply (run_without_tick default_params
           [RightWheel 5; SimTime 9; LeftWheel 3; SimTime 2] (rolling 2 1)).
  reflexivity.
Defined.

Lemma tick_unseeded (p : Params) (s : State) :
  last_sim_time s = None ->
  exists s1,
    update_odometry p s = Done s1 [] /\
    x s1 = x s /\ y s1 = y s /\ theta s1 = theta s.
Proof.
  intros Hb. unfold update_odometry. rewrite Hb.
  destruct (sim_time s) as [now |]; eexists;
    (split; [reflexivity | repeat split]).
Qed.

(** X8: the first tick of a node without a baseline never integrates: a
    run with at most one tick from such a node returns, sends nothing and
    leaves the pose as it was, whatever the wheel speeds and time samples
    are. *)
Theorem first_tick_only_seeds (p : Params) (ops : list Op) (s : State) :
  last_sim_time s = None ->
  (count_ticks ops <= 1)%nat ->
  exists s',
    run p s ops = Done s' [] /\
    x s' = x s /\ y s' = y s /\ theta s' = theta s.
Proof.
  revert s. induction ops as [| op rest IH]; intros s Hb Hcount.
  - exists s. repeat split.
  - rewrite count_ticks_cons in Hcount.
    destruct (is_tick op) eqn:Hop.
    + destruct op; try discriminate Hop.
      destruct (tick_unseeded p s Hb) as (s1 & Hstep & Hx1 & Hy1 & Ht1).
      assert (Hrest : count_ticks rest = 0%nat) by lia.
      destruct (run_without_tick_aux p rest s1 Hrest)
        as (s' & Hrun & Hx & Hy & Ht & _).
      exists s'. cbn [run step]. rewrite Hstep, Hrun.
      repeat split; congruence.
    + destruct (step_not_tick p s op Hop)
        as (s1 & Hstep & Hx1 & Hy1 & Ht1 & Hb1).
      assert (Hb' : last_sim_time s1 = None) by congruence.
      destruct (IH s1 Hb' Hcount) as (s' & Hrun & Hx & Hy & Ht).
      exists s'. cbn [run]. rewrite Hstep, Hrun.
      repeat split; congruence.
Qed.

Lemma first_tick_only_seeds_witness :
  exists s',
    run default_params init
        [RightWheel 5; LeftWheel 3; SimTime 2; Tick; SimTime 9] =
    Done s' [] /\
    x s' = 0 /\ y s' = 0 /\ theta s' = 0.
Proof.
  apply (first_tick_only_seeds default_params
           [RightWheel 5; LeftWheel 3; SimTime 2; Tick; SimTime 9] init).
  - reflexivity.
  - unfold count_ticks. simpl. lia.
Defined.

(** ** Ticks without new time *)

(** A tick on a node whose baseline is its simulation time returns at
    once. *)
Lemma tick_at_baseline (p : Params) (s : State) (now : R) :
  0 < integration_period p ->
  sim_time s = Some now -> last_sim_time s = Some now ->
  update_odometry p s = Done s [].
Proof.
  intros Hip Hn Hl. unfold update_odometry. rewrite Hn, Hl. cbv zeta.
  destruct (Rlt_dec (now - now) (integration_period p)) as [_ | Hge];
    [reflexivity | lra].
Qed.

(** X9: no step is integrated twice: with a positive integration period, a
    tick that follows another tick with no time sample in between returns
    at once, changes nothing and sends nothing. *)
Theorem second_tick_noop (p : Params) (s : State) :
  0 < integration_period p ->
  update_odometry p (state_of (update_odometry p s)) =
  Done (state_of (update_odometry p s)) [].
Proof.
  intros Hip.
  destruct (sim_time s) as [now |] eqn:Hn.
  - destruct (last_sim_time s) as [last |] eqn:Hl.
    + destruct (Rlt_dec (now - last) (integration_period p)) as [Hlt | Hge].
      * assert (Hs : update_odometry p s = Done s []).
        { unfold update_odometry. rewrite Hn, Hl. cbv zeta.
          destruct (Rlt_dec (now - last) (integration_period p));
            [reflexivity | contradiction]. }
        rewrite Hs. exact Hs.
      * rewrite (update_odometry_ready p s now last Hn Hl) by lra.
        apply (tick_at_baseline p _ now Hip).
        -- unfold integrate.
           destruct (Req_dec_T (wheel_base p) 0); simpl; exact Hn.
        -- now rewrite integrate_last_sim_time.
    + assert (Hs : update_odometry p s =
                   Done (set_last_sim_time (Some now) s) []).
      { unfold update_odometry. now rewrite Hn, Hl. }
      rewrite Hs. apply (tick_at_baseline p _ now Hip).
      * simpl. exact Hn.
      * reflexivity.
  - assert (Hs : update_odometry p s = Done s []).
    { unfold update_odometry. now rewrite Hn. }
    rewrite Hs. exact Hs.
Qed.

Lemma second_tick_noop_witness :
  update_odometry default_params
                  (state_of (update_odometry default_params (rolling 2 1))) =
  Done (state_of (update_odometry default_params (rolling 2 1))) [].
Proof.
  apply (second_tick_noop default_params (rolling 2 1)).
  simpl. lra.
Defined.

(** X10: a time sample that comes too soon after the baseline leaves no
    trace once the next sample has arrived: the tick that sees it changes
    nothing, so the run goes on as if the sample had never come, and the
    next step is measured from the old baseline. *)
Theorem early_sample_forgotten (p : Params) (s : State) (b t1 t2 : R)
        (rest : list Op) :
  last_sim_time s = Some b ->
  t1 - b < integration_period p ->
  run p s (SimTime t1 :: Tick :: SimTime t2 :: rest) =
  run p s (SimTime t2 :: rest).
Proof.
  intros Hb Hlt.
  assert (Htick : update_odometry p (sim_time_callback t1 s) =
                  Done (sim_time_callback t1 s) []).
  { unfold update_odometry.
    cbn [sim_time last_sim_time sim_time_callback set_sim_time].
    rewrite Hb. cbv zeta.
    destruct (Rlt_dec (t1 - b) (integration_period p));
      [reflexivity | contradiction]. }
  cbn [run step]. rewrite Htick. cbn [app]. 
  change (sim_time_callback t2 (sim_time_callback t1 s))
    with (sim_time_callback t2 s).
  now destruct (run p (sim_time_callback t2 s) rest).
Qed.

Lemma early_sample_forgotten_witness :
  run default_params (rolling 2 1)
      [SimTime 0.005; Tick; SimTime 3; Tick] =
  run default_params (rolling 2 1) [SimTime 3; Tick].
Proof.
  apply (early_sample_forgotten default_params (rolling 2 1) 0 0.005 3 [Tick]).
  - reflexivity.
  - simpl. lra.
Defined.

(** X11: a node with a baseline has a simulation time: in every state a
    run from the start can end in, [last_sim_time] is set only if
    [sim_time] is, so the tick never subtracts with [None]. *)
Theorem baseline_implies_sim_time (p : Params) (ops : list Op) :
  last_sim_time (state_of (run p init ops)) <> None ->
  sim_time (state_of (run p init ops)) <> None.
Proof.
  apply (run_state_ind p
           (fun s => last_sim_time s <> None -> sim_time s <> None)).
  - intros s op Hs. destruct op; simpl; try exact Hs; try discriminate.
    unfold update_odometry.
    destruct (sim_time s) as [now |] eqn:Hn;
      [| simpl; rewrite Hn; exact Hs].
    destruct (last_sim_time s) as [last |] eqn:Hl.
    + cbv zeta. destruct (Rlt_dec (now - last) (integration_period p)).
      * simpl. rewrite Hn. discriminate.
      * unfold integrate. destruct (Req_dec_T (wheel_base p) 0); simpl;
          rewrite Hn; discriminate.
    + simpl. rewrite Hn. discriminate.
  - simpl. intros H. now contradiction H.
Qed.

Lemma baseline_implies_sim_time_witness :
  sim_time (state_of (run default_params init [SimTime 2; Tick])) <> None.
Proof.
  apply (baseline_implies_sim_time default_params [SimTime 2; Tick]).
  simpl. discriminate.
Defined.

(** ** Constant wheel speeds *)

(** X12: a tick that passes the clock tests moves the robot by exactly
    [|V| * dt]: the square of the distance between the positions before and
    after is the square of [V * dt], whatever the heading. The wheel base,
    a divisor, is not zero. *)
Theorem step_length (p : Params) (s : State) (dt : R) :
  wheel_base p <> 0 ->
  clock_gate p s = Ready dt ->
  exists s' out,
    update_odometry p s = Done s' out /\
    (x s' - x s) * (x s' - x s) + (y s' - y s) * (y s' - y s) =
    (body_linear p s * dt) * (body_linear p s * dt).
Proof.
  intros Hwb Hgate.
  destruct (clock_gate_Ready_inv p s dt Hgate)
    as (now & last & Hn & Hlast & -> & Hge).
  destruct (ready_tick p s now last Hwb Hn Hlast Hge)
    as (odom_msg & t & Hrun & _).
  rewrite Hrun. do 2 eexists. split; [reflexivity |].
  cbn [x y].
  pose proof (sin2_cos2 (theta s)) as Hsc. unfold Rsqr in Hsc.
  set (c := cos (theta s)) in *. set (sn := sin (theta s)) in *.
  set (d := body_linear p s * (now - last)).
  replace (x s + body_linear p s * c * (now - last) - x s) with (d * c)
    by (unfold d; ring).
  replace (y s + body_linear p s * sn * (now - last) - y s) with (d * sn)
    by (unfold d; ring).
  replace (d * c * (d * c) + d * sn * (d * sn))
    with (d * d * (sn * sn + c * c)) by ring.
  rewrite Hsc. ring.
Qed.

Lemma step_length_witness :
  exists s' out,
    update_odometry default_params (rolling 2 1) = Done s' out /\
    (x s' - 0) * (x s' - 0) + (y s' - 0) * (y s' - 0) =
    (body_linear default_params (rolling 2 1) * (1 - 0)) *
    (body_linear default_params (rolling 2 1) * (1 - 0)).
Proof.
  apply (step_length default_params (rolling 2 1) (1 - 0)).
  - exact default_wheel_base.
  - apply rolling_ready.
Defined.

(** Ticks that all pass the clock tests, with the wheel speeds left alone:
    the heading turns by [Omega] times the whole time elapsed; with [V]
    zero the position stays, and with [Omega] zero it moves along the
    heading by [V] times the whole time elapsed. *)
Lemma ticks_at_constant_speed (p : Params) (ts : list R) :
  wheel_base p <> 0 ->
  forall s b,
    theta_in_range s ->
    last_sim_time s = Some b ->
    all_ready p s ts ->
    exists s' out,
      run p s (ticks_at ts) = Done s' out /\
      omega_r s' = omega_r s /\ omega_l s' = omega_l s /\
      last_sim_time s' = Some (last ts b) /\
      theta s' = wrap_to_pi (theta s + body_angular p s * (last ts b - b)) /\
      (body_linear p s = 0 -> x s' = x s /\ y s' = y s) /\
      (body_angular p s = 0 ->
       x s' = x s + body_linear p s * cos (theta s) * (last ts b - b) /\
       y s' = y s + body_linear p s * sin (theta s) * (last ts b - b)).
Proof.
  intros Hwb. induction ts as [| t rest IH]; intros s b Hth Hb Hall.
  - exists s, []. cbn [last]. repeat split; try assumption.
    + replace (theta s + body_angular p s * (b - b)) with (theta s) by ring.
      now rewrite wrap_to_pi_fixed.
    + ring.
    + ring.
  - destruct Hall as [[dt Hgate] Hrest].
    destruct (clock_gate_Ready_inv _ _ _ Hgate)
      as (now & last' & Hn & Hlast & -> & Hge).
    cbn [sim_time last_sim_time sim_time_callback set_sim_time] in Hn, Hlast.
    assert (now = t) as -> by congruence.
    assert (last' = b) as -> by congruence.
    destruct (ready_tick p (sim_time_callback t s) t b Hwb eq_refl Hb Hge)
      as (odom_msg & tf & Hrun1 & _).
    rewrite Hrun1 in Hrest. cbn [state_of] in Hrest.
    change (body_linear p (sim_time_callback t s)) with (body_linear p s)
      in *.
    change (body_angular p (sim_time_callback t s)) with (body_angular p s)
      in *.
    cbn [x y theta omega_r omega_l sim_time_callback set_sim_time]
      in Hrun1, Hrest.
    set (s1 := mkState _ _ _ _ _ _ _) in Hrun1, Hrest.
    assert (Hth1 : theta_in_range s1) by apply wrap_to_pi_range.
    destruct (IH s1 t Hth1 eq_refl Hrest)
      as (s' & out & Hrun & Hr & Hl & Hb' & Ht & HV & HO).
    change (body_linear p s1) with (body_linear p s) in *.
    change (body_angular p s1) with (body_angular p s) in *.
    exists s', ([Publish odom_msg; SendTransform tf;
                 LogInfo (x s1) (y s1) (theta s1)] ++ out).
    change (ticks_at (t :: rest)) with (SimTime t :: Tick :: ticks_at rest).
    rewrite last_cons.
    cbn [run step app]. rewrite Hrun1. rewrite Hrun.
    split; [reflexivity |].
    split; [exact Hr |]. split; [exact Hl |]. split; [exact Hb' |].
    split; [| split].
    + rewrite Ht. cbn [theta s1]. rewrite wrap_to_pi_add_l. f_equal. ring.
    + intros HV0. destruct (HV HV0) as [Hx Hy].
      rewrite Hx, Hy. cbn [x y s1]. rewrite HV0. split; ring.
    + intros HO0. destruct (HO HO0) as [Hx Hy].
      rewrite Hx, Hy. cbn [x y theta s1]. rewrite HO0.
      replace (theta s + 0 * (t - b)) with (theta s) by ring.
      rewrite (wrap_to_pi_fixed (theta s) Hth). split; ring.
Qed.

Lemma rolling_theta_in_range (w_r w_l : R) : theta_in_range (rolling w_r w_l).
Proof. exact init_theta_in_range. Qed.

Lemma rolling_all_ready (w_r w_l : R) :
  all_ready default_params (rolling w_r w_l) [2; 3].
Proof.
  split.
  - exists (2 - 0). apply clock_gate_Ready_intro; try reflexivity.
    simpl. lra.
  - rewrite (update_odometry_ready default_params _ 2 0);
      [| reflexivity | reflexivity | simpl; lra].
    rewrite integrate_returns by exact default_wheel_base.
    split; [| exact I].
    exists (3 - 2). apply clock_gate_Ready_intro; try reflexivity.
    simpl. lra.
Qed.



(** X14: with equal wheel speeds [w] the robot drives straight: after any
    number of ticks that pass the clock tests the heading is as before and
    the position has moved along it by [wheel_radius * w] times the time
    elapsed in all, however the ticks divide the interval. The heading
    before is in the wrapped range and the wheel base is not zero. *)
Theorem straight_line (p : Params) (s : State) (b : R) (ts : list R) :
  wheel_base p <> 0 ->
  theta_in_range s ->
  last_sim_time s = Some b ->
  omega_r s = omega_l s ->
  all_ready p s ts ->
  exists s' out,
    run p s (ticks_at ts) = Done s' out /\
    theta s' = theta s /\
    x s' = x s + wheel_radius p * omega_r s * cos (theta s) * (last ts b - b) /\
    y s' = y s + wheel_radius p * omega_r s * sin (theta s) * (last ts b - b).
Proof.
  intros Hwb Hth Hb Heq Hall.
  destruct (ticks_at_constant_speed p ts Hwb s b Hth Hb Hall)
    as (s' & out & Hrun & _ & _ & _ & Ht & _ & HO).
  assert (HO0 : body_angular p s = 0).
  { unfold body_angular. rewrite Heq. field. exact Hwb. }
  assert (HV : body_linear p s = wheel_radius p * omega_r s).
  { unfold body_linear. rewrite Heq. lra. }
  destruct (HO HO0) as [Hx Hy].
  exists s', out. split; [exact Hrun |]. split; [| split].
  - rewrite Ht, HO0.
    replace (theta s + 0 * (last ts b - b)) with (theta s) by ring.
    now apply wrap_to_pi_fixed.
  - now rewrite Hx, HV.
  - now rewrite Hy, HV.
Qed.

Lemma straight_line_witness :
  exists s' out,
    run default_params (rolling 2 2) (ticks_at [2; 3]) = Done s' out /\
    theta s' = 0 /\
    x s' = 0 + 0.027 * 2 * cos 0 * (3 - 0) /\
    y s' = 0 + 0.027 * 2 * sin 0 * (3 - 0).
Proof.
  apply (straight_line default_params (rolling 2 2) 0 [2; 3]).
  - exact default_wheel_base.
  - apply rolling_theta_in_range.
  - reflexivity.
  - reflexivity.
  - apply rolling_all_ready.
Defined.



(** ** What a run sends *)

Lemma yaw_odometry_planar (st : Time) (px py h V Omega : R) :
  - PI <= h < PI ->
  planar_odometry
    (mkOdometry (mkHeader st "odom") "base_footprint" (mkPoint px py 0)
                (mkQuaternion (q1 (euler2quat 0 0 h)) (q2 (euler2quat 0 0 h))
                              (q3 (euler2quat 0 0 h)) (q0 (euler2quat 0 0 h)))
                (mkVector3 V 0 0) (mkVector3 0 0 Omega)).
Proof.
  intros Hh. unfold planar_odometry.
  cbn [odom_header odom_child_frame_id odom_position odom_orientation
       odom_twist_linear odom_twist_angular frame_id pt_z quat_x quat_y
       quat_z quat_w v3_x v3_y v3_z].
  rewrite euler2quat_yaw. cbn [q0 q1 q2 q3].
  repeat split.
  - pose proof (sin2_cos2 (h / 2)) as Hsc. unfold Rsqr in Hsc. exact Hsc.
  - apply cos_ge_0; lra.
Qed.

(** What one callback sends and does to the baseline: nothing is sent and
    the baseline stays or is set for the first time, or one odometry
    message, its transform and a log line are sent and the baseline moves
    up to the stamp. *)
Lemma step_output (p : Params) (s : State) (op : Op) (s1 : State)
      (out1 : list Event) :
  step p s op = Done s1 out1 ->
  (out1 = [] /\
   (last_sim_time s1 = last_sim_time s \/
    last_sim_time s = None /\ exists now, last_sim_time s1 = Some now)) \/
  (exists b now m px py ptheta,
      last_sim_time s = Some b /\ last_sim_time s1 = Some now /\
      b + integration_period p <= now /\
      out1 = [Publish m; SendTransform (transform_of m);
              LogInfo px py ptheta] /\
      seconds (stamp (odom_header m)) = now /\
      planar_odometry m).
Proof.
  destruct op; simpl; try (intros [= <- <-]; left; split; [reflexivity |];
                           left; reflexivity).
  unfold update_odometry.
  destruct (sim_time s) as [now |] eqn:Hn.
  - destruct (last_sim_time s) as [last |] eqn:Hl.
    + cbv zeta.
      destruct (Rlt_dec (now - last) (integration_period p)) as [Hlt | Hge].
      * intros [= <- <-]. left. split; [reflexivity |]. left. now rewrite Hl.
      * destruct (Req_dec_T (wheel_base p) 0) as [Hz | Hnz].
        { unfold integrate.
          destruct (Req_dec_T (wheel_base p) 0); [discriminate | contradiction]. }
        rewrite integrate_returns by exact Hnz. cbv zeta.
        intros Heq. injection Heq as <- <-. right.
        match goal with
        | |- context [Publish ?m0] => exists last, now, m0
        end.
        do 3 eexists.
        split; [reflexivity |]. split; [reflexivity |].
        split; [lra |]. split; [reflexivity |]. split; [reflexivity |].
        apply yaw_odometry_planar. apply wrap_to_pi_range.
    + intros [= <- <-]. left. split; [reflexivity |]. right.
      split; [reflexivity |]. now exists now.
  - intros [= <- <-]. left. split; [reflexivity |]. left. reflexivity.
Qed.

Lemma published_app (a b : list Event) :
  published (a ++ b) = published a ++ published b.
Proof.
  induction a as [| e a IH]; [reflexivity |].
  destruct e; cbn [app published]; now rewrite IH.
Qed.

Lemma broadcast_app (a b : list Event) :
  broadcast (a ++ b) = broadcast a ++ broadcast b.
Proof.
  induction a as [| e a IH]; [reflexivity |].
  destruct e; cbn [app broadcast]; now rewrite IH.
Qed.

Lemma odom_stamps_app (a b : list Event) :
  odom_stamps (a ++ b) = odom_stamps a ++ odom_stamps b.
Proof.
  unfold odom_stamps. now rewrite published_app, map_app.
Qed.

Lemma chain_spaced (gap lo : R) (l : list R) : chain gap lo l -> spaced gap l.
Proof.
  destruct l as [| a rest]; [trivial |]. now intros [_ Hrest].
Qed.

(** X16: every odometry message of every run is planar: frames odom and
    base_footprint, height 0, an orientation that is a unit quaternion
    about the vertical axis with [w] not negative, a linear velocity along
    x only and an angular velocity about z only. *)
Theorem published_planar (p : Params) (ops : list Op) (s : State) :
  Forall planar_odometry (published (trace p s ops)).
Proof.
  revert s. induction ops as [| op rest IH]; intros s.
  - constructor.
  - cbn [trace]. destruct (step p s op) as [s1 out1 | e s1] eqn:Hstep;
      [| constructor].
    rewrite published_app. apply Forall_app. split; [| apply IH].
    destruct (step_output p s op s1 out1 Hstep)
      as [[-> _] | (b & now & m & px & py & pth & _ & _ & _ & -> & _ & Hm)].
    + constructor.
    + cbn [published]. constructor; [exact Hm | constructor].
Qed.

(** X17: every transform of every run goes with an odometry message: the
    transforms sent are, in order, the odometry messages' stamps, frames,
    positions and orientations. *)
Theorem broadcast_follows_published (p : Params) (ops : list Op) (s : State) :
  broadcast (trace p s ops) = map transform_of (published (trace p s ops)).
Proof.
  revert s. induction ops as [| op rest IH]; intros s.
  - reflexivity.
  - cbn [trace]. destruct (step p s op) as [s1 out1 | e s1] eqn:Hstep;
      [| reflexivity].
    rewrite published_app, broadcast_app, map_app, IH. f_equal.
    destruct (step_output p s op s1 out1 Hstep)
      as [[-> _] | (b & now & m & px & py & pth & _ & _ & _ & -> & _)];
      reflexivity.
Qed.

Lemma trace_stamps_chain (p : Params) (ops : list Op) :
  forall s,
    match last_sim_time s with
    | Some b => chain (integration_period p) b (odom_stamps (trace p s ops))
    | None => spaced (integration_period p) (odom_stamps (trace p s ops))
    end.
Proof.
  induction ops as [| op rest IH]; intros s.
  - now destruct (last_sim_time s).
  - cbn [trace]. destruct (step p s op) as [s1 out1 | e s1] eqn:Hstep;
      [| now destruct (last_sim_time s)].
    rewrite odom_stamps_app. specialize (IH s1).
    destruct (step_output p s op s1 out1 Hstep)
      as [[-> [Hsame | [Hnone [now Hnow]]]]
         | (b & now & m & px & py & pth & Hb & Hnow & Hgap & -> & Hst & _)].
    + cbn [odom_stamps published map app]. now rewrite <- Hsame.
    + cbn [odom_stamps published map app]. rewrite Hnone.
      rewrite Hnow in IH. now apply chain_spaced in IH.
    + rewrite Hb. rewrite Hnow in IH.
      unfold odom_stamps at 1. cbn [published map app]. rewrite Hst.
      split; assumption.
Qed.

(** X18: the odometry stamps of every run are spaced by at least the
    integration period, whatever order the time samples come in; and when
    the run starts with a baseline, the first stamp is at least the
    integration period above it. *)
Theorem stamps_spaced (p : Params) (ops : list Op) (s : State) :
  spaced (integration_period p) (odom_stamps (trace p s ops)) /\
  match last_sim_time s with
  | Some b => chain (integration_period p) b (odom_stamps (trace p s ops))
  | None => True
  end.
Proof.
  pose proof (trace_stamps_chain p ops s) as H.
  destruct (last_sim_time s) as [b |].
  - split; [now apply chain_spaced in H | exact H].
  - split; [exact H | exact I].
Qed.

Example rolling_trace_stamps :
  odom_stamps (trace default_params (rolling 2 1) [Tick]) = [1].
Proof.
  cbn [trace step].
  destruct (ready_tick default_params (rolling 2 1) 1 0 default_wheel_base
                       eq_refl eq_refl)
    as (m & t & Hrun & Hhead & _).
  { simpl. lra. }
  rewrite Hrun. unfold odom_stamps. cbn [app published map].
  now rewrite Hhead.
Qed.

(** X19: the orientation sent determines the heading: two wrapped headings
    with the same quaternion are the same heading, since half of a wrapped
    heading lies where the sine is one to one. *)
Theorem orientation_determines_heading (a b : R) :
  euler2quat 0 0 (wrap_to_pi a) = euler2quat 0 0 (wrap_to_pi b) ->
  wrap_to_pi a = wrap_to_pi b.
Proof.
  rewrite !euler2quat_yaw. intros Heq. injection Heq as _ Hsin.
  pose proof (wrap_to_pi_range a) as Ha.
  pose proof (wrap_to_pi_range b) as Hb.
  assert (Hhalf : wrap_to_pi a / 2 = wrap_to_pi b / 2).
  { apply sin_inj; [lra | lra | exact Hsin]. }
  lra.
Qed.

Lemma orientation_determines_heading_witness :
  wrap_to_pi (2 * PI) = wrap_to_pi 0.
Proof.
  apply (orientation_determines_heading (2 * PI) 0).
  f_equal. rewrite wrap_to_pi_zero.
  apply (wrap_to_pi_unique _ _ (-1)); pose proof PI_RGT_0; lra.
Defined.

(** X20: the guard against integrating twice is the integration period
    itself: with a period of zero or less, a tick on a node whose baseline
    already is its simulation time passes the clock tests with [dt = 0],
    so it sends an odometry message and a transform again, and leaves the
    pose where it was. The heading is in the wrapped range and the wheel
    base is not zero. *)
Theorem zero_period_tick (p : Params) (s : State) (now : R) :
  integration_period p <= 0 ->
  wheel_base p <> 0 ->
  theta_in_range s ->
  sim_time s = Some now -> last_sim_time s = Some now ->
  exists s' odom_msg t line,
    update_odometry p s = Done s' [Publish odom_msg; SendTransform t; line] /\
    x s' = x s /\ y s' = y s /\ theta s' = theta s /\
    stamp (odom_header odom_msg) = Time_to_msg now.
Proof.
  intros Hip Hwb Hth Hn Hl.
  destruct (ready_tick p s now now Hwb Hn Hl) as (m & t & Hrun & Hhead & _);
    [lra |].
  rewrite Hrun. do 4 eexists. split; [reflexivity |].
  cbn [x y theta]. rewrite Hhead. cbn [stamp].
  replace (now - now) with 0 by ring.
  repeat split; try ring.
  replace (theta s + body_angular p s * 0) with (theta s) by ring.
  now apply wrap_to_pi_fixed.
Qed.

Lemma zero_period_tick_witness :
  exists s' odom_msg t line,
    update_odometry (mkParams 0.119 0.027 40 0)
                    (mkState 0 0 0 2 1 (Some 1) (Some 1)) =
    Done s' [Publish odom_msg; SendTransform t; line] /\
    x s' = 0 /\ y s' = 0 /\ theta s' = 0 /\
    stamp (odom_header odom_msg) = Time_to_msg 1.
Proof.
  apply (zero_period_tick (mkParams 0.119 0.027 40 0)
                          (mkState 0 0 0 2 1 (Some 1) (Some 1)) 1).
  - simpl. lra.
  - simpl. lra.
  - exact init_theta_in_range.
  - reflexivity.
  - reflexivity.
Defined.
